(** * ChromaDMX tempo link: the native Ableton Link layer

    A shallow embedding of the two native translation units of the tempo
    module,

    - [ios/ChromaDMX/Platform/ABLLinkStubs.c], the C implementation of the
      functions declared in [ABLLink.h], and
    - [shared/tempo/src/androidMain/cpp/link_jni.cpp], the JNI entry points
      of [com.chromadmx.tempo.link.LinkSession],

    together with the properties of the session and phase contract that can
    be settled on them.

    A C [double] is an IEEE-754 binary64 value, modelled by the Standard
    Library's [spec_float] at precision 53 and maximal exponent 1024.  A
    native function is a computation over the native heap that either
    returns a value and a heap or fails. *)

From Stdlib Require Import ZArith List.
From Stdlib Require Import Floats.SpecFloat.
From ExtLib Require Import Structures.Monad Structures.MonadState
  Structures.MonadExc.
From ExtLib Require Import Data.Monads.StateMonad Data.Monads.EitherMonad.
Import ListNotations.
Import MonadNotation.
Local Open Scope monad_scope.
Local Open Scope Z_scope.

#[local] Existing Instance Monad_stateT.

(* ===================================================================== *)
(** ** Scalar types of the two translation units *)
(* ===================================================================== *)

(** [double] and [jdouble]: binary64. *)
Definition double : Type := spec_float.
Definition jdouble : Type := double.

Definition prec : Z := 53.
Definition emax : Z := 1024.

(** [uint64_t], [jlong] and [jint] values.  The code never computes with
    them, so no wrap-around is involved; every theorem below holds for all
    integers, in or out of the type's range. *)
Definition uint64_t : Type := Z.
Definition jlong : Type := Z.
Definition jint : Type := Z.

(** [bool] of <stdbool.h> and [jboolean]. *)
Definition jboolean : Type := bool.
Definition JNI_FALSE : jboolean := false.

(** Pointers are addresses; [NULL] is address 0.  [struct ABLLink] and
    [struct ABLLinkSessionState] are incomplete types in [ABLLink.h], so
    the two reference types are bare addresses. *)
Definition pointer : Type := Z.
Definition NULL : pointer := 0.
Definition ABLLinkRef : Type := pointer.
Definition ABLLinkSessionStateRef : Type := pointer.
Definition JNIEnv_ptr : Type := pointer.
Definition jobject : Type := pointer.

(* ===================================================================== *)
(** ** binary64 arithmetic *)
(* ===================================================================== *)

(** The binary64 value nearest to [m * 2^e]. *)
Definition dyadic (m e : Z) : double := binary_normalize prec emax m e false.

(** The literals that occur in the sources and in the specification. *)
Definition d0_0 : double := S754_zero false.
Definition d1_0 : double := Eval vm_compute in dyadic 1 0.
Definition d4_0 : double := Eval vm_compute in dyadic 4 0.
Definition d120_0 : double := Eval vm_compute in dyadic 120 0.
Definition d5_5 : double := Eval vm_compute in dyadic 11 (-1).
Definition d140_0 : double := Eval vm_compute in dyadic 140 0.
Definition dm5_0 : double := Eval vm_compute in dyadic (-5) 0.
Definition dm1_0 : double := Eval vm_compute in dyadic (-1) 0.
Definition dm5_5 : double := Eval vm_compute in dyadic (-11) (-1).
Definition dm1_5 : double := Eval vm_compute in dyadic (-3) (-1).
Definition d0_625 : double := Eval vm_compute in dyadic 5 (-3).

Definition dlt (x y : double) : bool := SFltb x y.
Definition dle (x y : double) : bool := SFleb x y.
Definition deq (x y : double) : bool := SFeqb x y.
Definition dadd (x y : double) : double := SFadd prec emax x y.
Definition ddiv (x y : double) : double := SFdiv prec emax x y.

Definition is_nan (x : double) : bool :=
  match x with S754_nan => true | _ => false end.

Definition is_finite (x : double) : bool :=
  match x with
  | S754_zero _ | S754_finite _ _ _ => true
  | S754_infinity _ | S754_nan => false
  end.

(** [std::fmod] of <cmath>, the header [link_jni.cpp] includes: the
    remainder of the division truncated towards zero.  The result is exact
    and has the sign of [x]; it is NaN when [x] is infinite or [y] is zero,
    and [x] itself when [y] is infinite. *)
Definition fmod (x y : double) : double :=
  match x, y with
  | S754_nan, _ | _, S754_nan => S754_nan
  | S754_infinity _, _ => S754_nan
  | _, S754_zero _ => S754_nan
  | S754_zero _, _ => x
  | S754_finite _ _ _, S754_infinity _ => x
  | S754_finite sx mx ex, S754_finite _ my ey =>
      let e := Z.min ex ey in
      let X := Z.pos mx * 2 ^ (ex - e) in
      let Y := Z.pos my * 2 ^ (ey - e) in
      match Z.rem X Y with
      | Z.pos r => binary_round prec emax sx r e
      | _ => S754_zero sx
      end
  end.

(* ===================================================================== *)
(** ** Native computations *)
(* ===================================================================== *)

(** The native heap: the addresses that hold a live object, each with the
    word stored there. *)
Definition Memory : Type := list (pointer * Z).

(** How a native call can end without returning: the two kinds of
    rejection the contract names, and an access through a pointer that
    refers to no live object. *)
Inductive failure : Type :=
| DomainError
| PreconditionFailure
| InvalidAccess.

Definition native : Type -> Type := stateT Memory (sum failure).

(** The result of running a call on a heap. *)
Definition outcome (A : Type) : Type := (failure + A * Memory)%type.

Definition run {A : Type} (c : native A) (m : Memory) : outcome A :=
  runStateT c m.

Definition Returns {A : Type} (a : A) (m : Memory) : outcome A := inr (a, m).
Definition Fails {A : Type} (f : failure) : outcome A := inl f.

Fixpoint lookup (p : pointer) (m : Memory) : option Z :=
  match m with
  | [] => None
  | (q, v) :: m' => if Z.eqb p q then Some v else lookup p m'
  end.

(** Dereferencing, [*p]: defined on the address of a live object only, and
    never on [NULL]. *)
Definition deref (p : pointer) : native Z :=
  if Z.eqb p NULL then raise InvalidAccess
  else
    m <- get ;;
    match lookup p m with
    | Some v => ret v
    | None => raise InvalidAccess
    end.

(** The expression statement [(void)x;]: the value of a parameter is
    computed and dropped. *)
Definition void {A : Type} (x : A) : native unit := ret tt.

(** A call was rejected when it ended in one of the two rejecting
    failures. *)
Definition rejected {A : Type} (o : outcome A) : bool :=
  match o with
  | inl DomainError | inl PreconditionFailure => true
  | _ => false
  end.

(* ===================================================================== *)
(** ** ABLLinkStubs.c *)
(* ===================================================================== *)

Definition ABLLinkNew (bpm : double) : native ABLLinkRef :=
  void bpm ;;
  ret NULL.

Definition ABLLinkDelete (ref : ABLLinkRef) : native unit :=
  void ref.

Definition ABLLinkSetActive (ref : ABLLinkRef) (active : bool) : native unit :=
  void ref ;;
  void active.

Definition ABLLinkIsEnabled (ref : ABLLinkRef) : native bool :=
  void ref ;;
  ret false.

Definition ABLLinkGetNumPeers (ref : ABLLinkRef) : native uint64_t :=
  void ref ;;
  ret 0.

Definition ABLLinkCaptureAppSessionState (ref : ABLLinkRef)
  : native ABLLinkSessionStateRef :=
  void ref ;;
  ret NULL.

Definition ABLLinkCommitAppSessionState (ref : ABLLinkRef)
    (state : ABLLinkSessionStateRef) : native unit :=
  void ref ;;
  void state.

Definition ABLLinkGetTempo (state : ABLLinkSessionStateRef) : native double :=
  void state ;;
  ret d120_0.

Definition ABLLinkSetTempo (state : ABLLinkSessionStateRef) (bpm : double)
    (hostTime : uint64_t) : native unit :=
  void state ;;
  void bpm ;;
  void hostTime.

Definition ABLLinkGetBeatAtTime (state : ABLLinkSessionStateRef)
    (hostTime : uint64_t) (quantum : double) : native double :=
  void state ;;
  void hostTime ;;
  void quantum ;;
  ret d0_0.

(* ===================================================================== *)
(** ** link_jni.cpp *)
(* ===================================================================== *)

(** The entry points [Java_com_chromadmx_tempo_link_LinkSession_<method>].
    Their first two parameters, the [JNIEnv*] and the receiver, are unnamed
    in the source and therefore unused. *)
Module Java_com_chromadmx_tempo_link_LinkSession.

Definition nativeCreate (_ : JNIEnv_ptr) (_ : jobject) (initialBpm : jdouble)
  : native jlong :=
  void initialBpm ;;
  ret 0.

Definition nativeDestroy (_ : JNIEnv_ptr) (_ : jobject) (ptr : jlong)
  : native unit :=
  void ptr.

Definition nativeSetEnabled (_ : JNIEnv_ptr) (_ : jobject) (ptr : jlong)
    (enabled : jboolean) : native unit :=
  void ptr ;;
  void enabled.

Definition nativeIsEnabled (_ : JNIEnv_ptr) (_ : jobject) (ptr : jlong)
  : native jboolean :=
  void ptr ;;
  ret JNI_FALSE.

Definition nativeCaptureBpm (_ : JNIEnv_ptr) (_ : jobject) (ptr : jlong)
  : native jdouble :=
  void ptr ;;
  ret d120_0.

Definition nativeCaptureBeatPhase (_ : JNIEnv_ptr) (_ : jobject) (ptr : jlong)
    (quantum : jdouble) : native jdouble :=
  void ptr ;;
  void quantum ;;
  ret d0_0.

Definition nativeCaptureBarPhase (_ : JNIEnv_ptr) (_ : jobject) (ptr : jlong)
    (quantum : jdouble) : native jdouble :=
  void ptr ;;
  void quantum ;;
  ret d0_0.

Definition nativeNumPeers (_ : JNIEnv_ptr) (_ : jobject) (ptr : jlong)
  : native jint :=
  void ptr ;;
  ret 0.

Definition nativeRequestBpm (_ : JNIEnv_ptr) (_ : jobject) (ptr : jlong)
    (bpm : jdouble) : native unit :=
  void ptr ;;
  void bpm.

End Java_com_chromadmx_tempo_link_LinkSession.

Import Java_com_chromadmx_tempo_link_LinkSession.


(* ===================================================================== *)
(** ** The phase algorithm of the specification *)
(* ===================================================================== *)

(** The algorithm as the specification words it, to be compared with the
    entry points above: [rawPhase = beats mod quantum]; if [rawPhase < 0]
    add [quantum]; return [rawPhase / quantum].  The [mod] of two reals is
    [fmod], as in the description of the computation in [link_jni.cpp]. *)
Definition phase_spec (beats quantum : double) : double :=
  let rawPhase := fmod beats quantum in
  let rawPhase := if dlt rawPhase d0_0 then dadd rawPhase quantum
                  else rawPhase in
  ddiv rawPhase quantum.

(** A phase is valid when it lies in [0, 1). *)
Definition in_unit_interval (p : double) : Prop :=
  dle d0_0 p = true /\ dlt p d1_0 = true.

(* ===================================================================== *)
(** ** Observations and call sequences *)
(* ===================================================================== *)

(** What a client can see of the session behind [ref] at host time
    [hostTime]: the tempo and the beat position of a fresh capture. *)
Definition observe (ref : ABLLinkRef) (hostTime : uint64_t) (quantum : double)
  : native (double * double) :=
  state <- ABLLinkCaptureAppSessionState ref ;;
  tempo <- ABLLinkGetTempo state ;;
  beats <- ABLLinkGetBeatAtTime state hostTime quantum ;;
  ret (tempo, beats).

(** One call of the native interface, with its arguments. *)
Inductive call : Type :=
| C_ABLLinkNew (bpm : double)
| C_ABLLinkDelete (ref : ABLLinkRef)
| C_ABLLinkSetActive (ref : ABLLinkRef) (active : bool)
| C_ABLLinkIsEnabled (ref : ABLLinkRef)
| C_ABLLinkGetNumPeers (ref : ABLLinkRef)
| C_ABLLinkCaptureAppSessionState (ref : ABLLinkRef)
| C_ABLLinkCommitAppSessionState (ref : ABLLinkRef)
    (state : ABLLinkSessionStateRef)
| C_ABLLinkGetTempo (state : ABLLinkSessionStateRef)
| C_ABLLinkSetTempo (state : ABLLinkSessionStateRef) (bpm : double)
    (hostTime : uint64_t)
| C_ABLLinkGetBeatAtTime (state : ABLLinkSessionStateRef)
    (hostTime : uint64_t) (quantum : double)
| C_nativeCreate (env : JNIEnv_ptr) (thiz : jobject) (initialBpm : jdouble)
| C_nativeDestroy (env : JNIEnv_ptr) (thiz : jobject) (ptr : jlong)
| C_nativeSetEnabled (env : JNIEnv_ptr) (thiz : jobject) (ptr : jlong)
    (enabled : jboolean)
| C_nativeIsEnabled (env : JNIEnv_ptr) (thiz : jobject) (ptr : jlong)
| C_nativeCaptureBpm (env : JNIEnv_ptr) (thiz : jobject) (ptr : jlong)
| C_nativeCaptureBeatPhase (env : JNIEnv_ptr) (thiz : jobject) (ptr : jlong)
    (quantum : jdouble)
| C_nativeCaptureBarPhase (env : JNIEnv_ptr) (thiz : jobject) (ptr : jlong)
    (quantum : jdouble)
| C_nativeNumPeers (env : JNIEnv_ptr) (thiz : jobject) (ptr : jlong)
| C_nativeRequestBpm (env : JNIEnv_ptr) (thiz : jobject) (ptr : jlong)
    (bpm : jdouble).

(** Make the call and drop what it returns. *)
Definition perform (c : call) : native unit :=
  match c with
  | C_ABLLinkNew bpm => ABLLinkNew bpm ;; ret tt
  | C_ABLLinkDelete ref => ABLLinkDelete ref
  | C_ABLLinkSetActive ref active => ABLLinkSetActive ref active
  | C_ABLLinkIsEnabled ref => ABLLinkIsEnabled ref ;; ret tt
  | C_ABLLinkGetNumPeers ref => ABLLinkGetNumPeers ref ;; ret tt
  | C_ABLLinkCaptureAppSessionState ref =>
      ABLLinkCaptureAppSessionState ref ;; ret tt
  | C_ABLLinkCommitAppSessionState ref state =>
      ABLLinkCommitAppSessionState ref state
  | C_ABLLinkGetTempo state => ABLLinkGetTempo state ;; ret tt
  | C_ABLLinkSetTempo state bpm hostTime => ABLLinkSetTempo state bpm hostTime
  | C_ABLLinkGetBeatAtTime state hostTime quantum =>
      ABLLinkGetBeatAtTime state hostTime quantum ;; ret tt
  | C_nativeCreate env thiz initialBpm =>
      nativeCreate env thiz initialBpm ;; ret tt
  | C_nativeDestroy env thiz ptr => nativeDestroy env thiz ptr
  | C_nativeSetEnabled env thiz ptr enabled =>
      nativeSetEnabled env thiz ptr enabled
  | C_nativeIsEnabled env thiz ptr => nativeIsEnabled env thiz ptr ;; ret tt
  | C_nativeCaptureBpm env thiz ptr => nativeCaptureBpm env thiz ptr ;; ret tt
  | C_nativeCaptureBeatPhase env thiz ptr quantum =>
      nativeCaptureBeatPhase env thiz ptr quantum ;; ret tt
  | C_nativeCaptureBarPhase env thiz ptr quantum =>
      nativeCaptureBarPhase env thiz ptr quantum ;; ret tt
  | C_nativeNumPeers env thiz ptr => nativeNumPeers env thiz ptr ;; ret tt
  | C_nativeRequestBpm env thiz ptr bpm => nativeRequestBpm env thiz ptr bpm
  end.

(** Make the calls of a history one after the other. *)
Fixpoint perform_all (cs : list call) : native unit :=
  match cs with
  | [] => ret tt
  | c :: cs' => perform c ;; perform_all cs'
  end.

(** The session as a client sees it right after construction and a
    history of calls: the captured state, the tempo and the beat position
    read from it, the enabled flag and the peer count. *)
Definition session_report (bpm : double) (cs : list call)
    (hostTime : uint64_t) (quantum : double)
  : native (ABLLinkSessionStateRef * double * double * bool * uint64_t) :=
  ref <- ABLLinkNew bpm ;;
  perform_all cs ;;
  state <- ABLLinkCaptureAppSessionState ref ;;
  tempo <- ABLLinkGetTempo state ;;
  beats <- ABLLinkGetBeatAtTime state hostTime quantum ;;
  enabled <- ABLLinkIsEnabled ref ;;
  peers <- ABLLinkGetNumPeers ref ;;
  ret (state, tempo, beats, enabled, peers).

(** The same through the JNI entry points: tempo, beat phase, bar phase,
    enabled flag and peer count. *)
Definition jni_session_report (env : JNIEnv_ptr) (thiz : jobject)
    (initialBpm : jdouble) (cs : list call) (beatQuantum barQuantum : jdouble)
  : native (jdouble * jdouble * jdouble * jboolean * jint) :=
  ptr <- nativeCreate env thiz initialBpm ;;
  perform_all cs ;;
  tempo <- nativeCaptureBpm env thiz ptr ;;
  beatPhase <- nativeCaptureBeatPhase env thiz ptr beatQuantum ;;
  barPhase <- nativeCaptureBarPhase env thiz ptr barQuantum ;;
  enabled <- nativeIsEnabled env thiz ptr ;;
  peers <- nativeNumPeers env thiz ptr ;;
  ret (tempo, beatPhase, barPhase, enabled, peers).

(** The call returned, with a value that satisfies [P]. *)
Definition returns_with {A : Type} (o : outcome A) (P : A -> Prop) : Prop :=
  match o with
  | inr (a, _) => P a
  | inl _ => False
  end.

(** Both calls returned, with values that compare equal under [==]. *)
Definition equal_doubles (o1 o2 : outcome double) : bool :=
  match o1, o2 with
  | inr (x, _), inr (y, _) => deq x y
  | _, _ => false
  end.

(** The phase entry points reject the quantum they are given. *)
Definition quantum_rejected (env : JNIEnv_ptr) (thiz : jobject) (ptr : jlong)
    (quantum : jdouble) (m : Memory) : Prop :=
  rejected (run (nativeCaptureBeatPhase env thiz ptr quantum) m) = true /\
  rejected (run (nativeCaptureBarPhase env thiz ptr quantum) m) = true.

(** The tempo request entry point rejects the tempo it is given. *)
Definition bpm_rejected (env : JNIEnv_ptr) (thiz : jobject) (ptr : jlong)
    (bpm : jdouble) (m : Memory) : Prop :=
  rejected (run (nativeRequestBpm env thiz ptr bpm) m) = true.

(** Every operation that takes a handle returns its fixed value and leaves
    the heap alone, at the handles [ref], [state] and [ptr]. *)
Definition stub_defaults (ref : ABLLinkRef) (state : ABLLinkSessionStateRef)
    (env : JNIEnv_ptr) (thiz : jobject) (ptr : jlong) (m : Memory) : Prop :=
  run (ABLLinkDelete ref) m = Returns tt m /\
  (forall active, run (ABLLinkSetActive ref active) m = Returns tt m) /\
  run (ABLLinkIsEnabled ref) m = Returns false m /\
  run (ABLLinkGetNumPeers ref) m = Returns 0 m /\
  run (ABLLinkCaptureAppSessionState ref) m = Returns NULL m /\
  run (ABLLinkCommitAppSessionState ref state) m = Returns tt m /\
  run (ABLLinkGetTempo state) m = Returns d120_0 m /\
  (forall bpm hostTime,
     run (ABLLinkSetTempo state bpm hostTime) m = Returns tt m) /\
  (forall hostTime quantum,
     run (ABLLinkGetBeatAtTime state hostTime quantum) m = Returns d0_0 m) /\
  run (nativeDestroy env thiz ptr) m = Returns tt m /\
  (forall enabled,
     run (nativeSetEnabled env thiz ptr enabled) m = Returns tt m) /\
  run (nativeIsEnabled env thiz ptr) m = Returns JNI_FALSE m /\
  run (nativeCaptureBpm env thiz ptr) m = Returns d120_0 m /\
  (forall quantum,
     run (nativeCaptureBeatPhase env thiz ptr quantum) m = Returns d0_0 m) /\
  (forall quantum,
     run (nativeCaptureBarPhase env thiz ptr quantum) m = Returns d0_0 m) /\
  run (nativeNumPeers env thiz ptr) m = Returns 0 m /\
  (forall bpm, run (nativeRequestBpm env thiz ptr bpm) m = Returns tt m).

(** Peer count and tempo of a session constructed at [bpm], after a
    history of calls. *)
Definition peers_and_tempo (bpm : double) (cs : list call)
  : native (uint64_t * double) :=
  ref <- ABLLinkNew bpm ;;
  perform_all cs ;;
  peers <- ABLLinkGetNumPeers ref ;;
  state <- ABLLinkCaptureAppSessionState ref ;;
  tempo <- ABLLinkGetTempo state ;;
  ret (peers, tempo).

Definition jni_peers_and_tempo (env : JNIEnv_ptr) (thiz : jobject)
    (initialBpm : jdouble) (cs : list call) : native (jint * jdouble) :=
  ptr <- nativeCreate env thiz initialBpm ;;
  perform_all cs ;;
  peers <- nativeNumPeers env thiz ptr ;;
  tempo <- nativeCaptureBpm env thiz ptr ;;
  ret (peers, tempo).

(* ===================================================================== *)
(** ** Client programs over the two interfaces *)
(* ===================================================================== *)

(** Activate the session behind [ref] in the middle of a history, then ask
    whether it is enabled. *)
Definition activate_then_ask (cs1 cs2 : list call) (ref : ABLLinkRef)
  : native bool :=
  perform_all cs1 ;;
  ABLLinkSetActive ref true ;;
  perform_all cs2 ;;
  ABLLinkIsEnabled ref.

Definition jni_activate_then_ask (cs1 cs2 : list call) (env : JNIEnv_ptr)
    (thiz : jobject) (ptr : jlong) : native jboolean :=
  perform_all cs1 ;;
  nativeSetEnabled env thiz ptr true ;;
  perform_all cs2 ;;
  nativeIsEnabled env thiz ptr.

(** Construct a session, destroy it twice, and go on using the handle. *)
Definition use_after_delete (bpm : double) (hostTime : uint64_t)
    (quantum : double) : native (double * double) :=
  ref <- ABLLinkNew bpm ;;
  ABLLinkDelete ref ;;
  ABLLinkDelete ref ;;
  observe ref hostTime quantum.

Definition jni_use_after_destroy (env : JNIEnv_ptr) (thiz : jobject)
    (initialBpm : jdouble) (quantum : jdouble)
  : native (jdouble * jdouble * jint) :=
  ptr <- nativeCreate env thiz initialBpm ;;
  nativeDestroy env thiz ptr ;;
  nativeDestroy env thiz ptr ;;
  tempo <- nativeCaptureBpm env thiz ptr ;;
  phase <- nativeCaptureBeatPhase env thiz ptr quantum ;;
  peers <- nativeNumPeers env thiz ptr ;;
  ret (tempo, phase, peers).

(** Construct two sessions and compare their handles. *)
Definition same_handle_twice (bpm1 bpm2 : double) : native bool :=
  ref1 <- ABLLinkNew bpm1 ;;
  ref2 <- ABLLinkNew bpm2 ;;
  ret (Z.eqb ref1 ref2).

Definition jni_same_handle_twice (env : JNIEnv_ptr) (thiz : jobject)
    (bpm1 bpm2 : jdouble) : native bool :=
  ptr1 <- nativeCreate env thiz bpm1 ;;
  ptr2 <- nativeCreate env thiz bpm2 ;;
  ret (Z.eqb ptr1 ptr2).

(** Construct a session and access the object behind its handle; on the
    JNI side the handle is the [jlong] cast back to a pointer. *)
Definition construct_and_access (bpm : double) : native Z :=
  ref <- ABLLinkNew bpm ;;
  deref ref.

Definition jni_construct_and_access (env : JNIEnv_ptr) (thiz : jobject)
    (initialBpm : jdouble) : native Z :=
  ptr <- nativeCreate env thiz initialBpm ;;
  deref ptr.

(** A tempo request made of the C interface, in the order [link_jni.cpp]
    gives for it: capture, set the tempo at [hostTime], commit.  Then the
    tempo of a fresh capture is read. *)
Definition request_then_read_tempo (ref : ABLLinkRef) (bpm : double)
    (hostTime : uint64_t) : native double :=
  state <- ABLLinkCaptureAppSessionState ref ;;
  ABLLinkSetTempo state bpm hostTime ;;
  ABLLinkCommitAppSessionState ref state ;;
  state' <- ABLLinkCaptureAppSessionState ref ;;
  ABLLinkGetTempo state'.

Definition jni_request_then_read_bpm (env : JNIEnv_ptr) (thiz : jobject)
    (ptr : jlong) (bpm : jdouble) : native jdouble :=
  nativeRequestBpm env thiz ptr bpm ;;
  nativeCaptureBpm env thiz ptr.

(** The call returned a tempo that compares equal to the one requested. *)
Definition reads_back (requested : double) (o : outcome double) : bool :=
  match o with
  | inr (tempo, _) => deq requested tempo
  | inl _ => false
  end.

(** What each interface shows of a session: tempo, enabled flag, peer
    count. *)
Definition c_view (ref : ABLLinkRef) : native (double * bool * Z) :=
  state <- ABLLinkCaptureAppSessionState ref ;;
  tempo <- ABLLinkGetTempo state ;;
  enabled <- ABLLinkIsEnabled ref ;;
  peers <- ABLLinkGetNumPeers ref ;;
  ret (tempo, enabled, peers).

Definition jni_view (env : JNIEnv_ptr) (thiz : jobject) (ptr : jlong)
  : native (double * bool * Z) :=
  tempo <- nativeCaptureBpm env thiz ptr ;;
  enabled <- nativeIsEnabled env thiz ptr ;;
  peers <- nativeNumPeers env thiz ptr ;;
  ret (tempo, enabled, peers).

(* ===================================================================== *)
(** ** Running native computations *)
(* ===================================================================== *)

Lemma run_bind {A B : Type} (c : native A) (k : A -> native B) (m : Memory) :
  run (x <- c ;; k x) m =
  match run c m with
  | inl f => inl f
  | inr (a, m') => run (k a) m'
  end.
Proof.
  unfold run. cbn. destruct (runStateT c m) as [f | [a m']]; reflexivity.
Qed.

Lemma run_ret {A : Type} (a : A) (m : Memory) : run (ret a) m = Returns a m.
Proof. reflexivity. Qed.

(** A call that returns leaves the rest of the program to run on the heap
    it returned. *)
Lemma run_seq {A B : Type} (c : native A) (k : A -> native B) (a : A)
    (m m' : Memory) :
  run c m = Returns a m' -> run (x <- c ;; k x) m = run (k a) m'.
Proof. intros H. rewrite run_bind, H. reflexivity. Qed.

(** Every single call returns and leaves the heap as it found it. *)
Lemma perform_skip (c : call) (m : Memory) : run (perform c) m = Returns tt m.
Proof. destruct c; reflexivity. Qed.

(** And so does every history of calls. *)
Lemma perform_all_skip (cs : list call) (m : Memory) :
  run (perform_all cs) m = Returns tt m.
Proof.
  induction cs as [| c cs IH]; [reflexivity |].
  cbn [perform_all]. rewrite (run_seq _ _ tt m m (perform_skip c m)).
  exact IH.
Qed.

(** After any history, a computation runs as if nothing had been called. *)
Lemma after_history {A : Type} (cs : list call) (k : native A) (m : Memory) :
  run (perform_all cs ;; k) m = run k m.
Proof. exact (run_seq _ _ tt m m (perform_all_skip cs m)). Qed.

(** No access goes through [NULL]. *)
Lemma deref_NULL (m : Memory) : run (deref NULL) m = Fails InvalidAccess.
Proof. reflexivity. Qed.

(** On the empty heap no pointer can be dereferenced. *)
Lemma deref_empty (p : pointer) : run (deref p) [] = Fails InvalidAccess.
Proof. unfold deref. destruct (Z.eqb p NULL); reflexivity. Qed.

(* ===================================================================== *)
(** ** binary64 facts *)
(* ===================================================================== *)

Lemma zero_in_unit_interval : in_unit_interval d0_0.
Proof. split; reflexivity. Qed.

(** The remainder keeps the sign of the dividend, which is why the
    algorithm lifts a negative remainder by the quantum. *)
Example fmod_negative_beats : fmod dm5_5 d4_0 = dm1_5.
Proof. reflexivity. Qed.

Example phase_spec_negative_beats : phase_spec dm5_5 d4_0 = d0_625.
Proof. reflexivity. Qed.

(** Outside its domain the algorithm has no phase to give: at quantum 0.0
    it yields NaN. *)
Example phase_spec_zero_quantum : phase_spec d5_5 d0_0 = S754_nan.
Proof. reflexivity. Qed.

(* ===================================================================== *)
(** ** The phase entry points *)
(* ===================================================================== *)

(** C1. For every native handle and heap (the session state and clock
    behind the handle) and every finite quantum above zero, the beat phase
    and the bar phase entry points return a phase [p] with
    [0.0 <= p < 1.0]. *)
Theorem phase_in_unit_interval (env : JNIEnv_ptr) (thiz : jobject)
    (ptr : jlong) (quantum : jdouble) (m : Memory) :
  is_finite quantum = true ->
  dlt d0_0 quantum = true ->
  returns_with (run (nativeCaptureBeatPhase env thiz ptr quantum) m)
    in_unit_interval /\
  returns_with (run (nativeCaptureBarPhase env thiz ptr quantum) m)
    in_unit_interval.
Proof.
  intros _ _. split; exact zero_in_unit_interval.
Qed.

Lemma phase_in_unit_interval_witness :
  is_finite d4_0 = true /\ dlt d0_0 d4_0 = true /\
  returns_with (run (nativeCaptureBeatPhase 0 0 0 d4_0) []) in_unit_interval /\
  returns_with (run (nativeCaptureBarPhase 0 0 0 d4_0) []) in_unit_interval.
Proof.
  refine (conj eq_refl (conj eq_refl _)).
  apply (phase_in_unit_interval 0 0 0 d4_0 []); reflexivity.
Defined.


(** C9. The beat phase and the bar phase entry points are the same
    function: for every handle, quantum and heap they end the same way,
    with return values that compare equal. *)
Theorem beat_phase_eq_bar_phase (env : JNIEnv_ptr) (thiz : jobject)
    (ptr : jlong) (quantum : jdouble) (m : Memory) :
  nativeCaptureBeatPhase env thiz ptr quantum =
    nativeCaptureBarPhase env thiz ptr quantum /\
  run (nativeCaptureBeatPhase env thiz ptr quantum) m =
    run (nativeCaptureBarPhase env thiz ptr quantum) m /\
  equal_doubles (run (nativeCaptureBeatPhase env thiz ptr quantum) m)
    (run (nativeCaptureBarPhase env thiz ptr quantum) m) = true.
Proof. repeat split. Qed.

(** C4, as the code has it.  For every quantum at or below zero the phase
    entry points do not reject the call: they return 0.0, as they do for
    every other quantum, and leave the heap alone.  The value returned is
    finite and not NaN, so no division by zero shows in it. *)
Theorem nonpositive_quantum_returns_zero (env : JNIEnv_ptr) (thiz : jobject)
    (ptr : jlong) (quantum : jdouble) (m : Memory) :
  dle quantum d0_0 = true ->
  run (nativeCaptureBeatPhase env thiz ptr quantum) m = Returns d0_0 m /\
  run (nativeCaptureBarPhase env thiz ptr quantum) m = Returns d0_0 m /\
  ~ quantum_rejected env thiz ptr quantum m /\
  is_nan d0_0 = false /\ is_finite d0_0 = true.
Proof.
  intros _. repeat split.
  intros [H _]. discriminate H.
Qed.

Lemma nonpositive_quantum_returns_zero_witness :
  dle dm1_0 d0_0 = true /\
  run (nativeCaptureBeatPhase 0 0 0 dm1_0) [] = Returns d0_0 [] /\
  run (nativeCaptureBarPhase 0 0 0 dm1_0) [] = Returns d0_0 [] /\
  ~ quantum_rejected 0 0 0 dm1_0 [] /\
  is_nan d0_0 = false /\ is_finite d0_0 = true.
Proof.
  split; [reflexivity |].
  apply (nonpositive_quantum_returns_zero 0 0 0 dm1_0 []); reflexivity.
Defined.

(** C4, as stated, fails at quantum 0.0 (and at -1.0): both entry points
    return 0.0 there, which is no rejection. *)
Lemma zero_quantum_not_rejected :
  dle d0_0 d0_0 = true /\
  run (nativeCaptureBeatPhase 0 0 0 d0_0) [] = Returns d0_0 [] /\
  run (nativeCaptureBarPhase 0 0 0 d0_0) [] = Returns d0_0 [] /\
  ~ quantum_rejected 0 0 0 d0_0 [] /\
  dle dm1_0 d0_0 = true /\
  ~ quantum_rejected 0 0 0 dm1_0 [].
Proof.
  repeat split; intros [H _]; discriminate H.
Qed.

(* ===================================================================== *)
(** ** Session state: capture, mutate, commit *)
(* ===================================================================== *)

(** C3. Tempo-change continuity.  For every session state, every new tempo
    above zero and every host time [t], the beat position at [t] read after
    [ABLLinkSetTempo state newBpm t] is the beat position at [t] read
    before it, and the two compare equal. *)
Theorem tempo_change_continuity (state : ABLLinkSessionStateRef)
    (newBpm : double) (t : uint64_t) (quantum : double) (m : Memory) :
  dlt d0_0 newBpm = true ->
  run (ABLLinkSetTempo state newBpm t ;;
       ABLLinkGetBeatAtTime state t quantum) m =
    run (ABLLinkGetBeatAtTime state t quantum) m /\
  equal_doubles
    (run (ABLLinkGetBeatAtTime state t quantum) m)
    (run (ABLLinkSetTempo state newBpm t ;;
          ABLLinkGetBeatAtTime state t quantum) m) = true.
Proof.
  intros _.
  rewrite (run_seq (ABLLinkSetTempo state newBpm t) _ tt m m) by reflexivity.
  split; reflexivity.
Qed.

Lemma tempo_change_continuity_witness :
  dlt d0_0 d140_0 = true /\
  run (ABLLinkSetTempo NULL d140_0 1000000 ;;
       ABLLinkGetBeatAtTime NULL 1000000 d4_0) [] =
    run (ABLLinkGetBeatAtTime NULL 1000000 d4_0) [] /\
  equal_doubles
    (run (ABLLinkGetBeatAtTime NULL 1000000 d4_0) [])
    (run (ABLLinkSetTempo NULL d140_0 1000000 ;;
          ABLLinkGetBeatAtTime NULL 1000000 d4_0) []) = true.
Proof.
  split; [reflexivity |].
  apply (tempo_change_continuity NULL d140_0 1000000 d4_0 []); reflexivity.
Defined.

(** C5. Round trip.  Committing a captured state as it is returns and
    leaves the heap alone, and what a client then observes of the session,
    tempo and beat position of a fresh capture at any host time, is what it
    observed before. *)
Theorem commit_capture_roundtrip (ref : ABLLinkRef) (hostTime : uint64_t)
    (quantum : double) (m : Memory) :
  run (state <- ABLLinkCaptureAppSessionState ref ;;
       ABLLinkCommitAppSessionState ref state) m = Returns tt m /\
  run (state <- ABLLinkCaptureAppSessionState ref ;;
       ABLLinkCommitAppSessionState ref state ;;
       observe ref hostTime quantum) m =
    run (observe ref hostTime quantum) m.
Proof. split; reflexivity. Qed.

(** C6, as the code has it.  For every tempo at or below zero the request
    entry point returns without rejecting the call, exactly as it does for
    a tempo above zero; it leaves the heap alone, so nothing is committed
    and no clamped value is stored; and the tempo observed after the call,
    through [nativeCaptureBpm] or through [ABLLinkGetTempo] on a fresh
    capture, is the tempo observed before it. *)
Theorem nonpositive_bpm_ignored (env : JNIEnv_ptr) (thiz : jobject)
    (ptr : jlong) (bpm : jdouble) (ref : ABLLinkRef) (m : Memory) :
  dle bpm d0_0 = true ->
  run (nativeRequestBpm env thiz ptr bpm) m = Returns tt m /\
  ~ bpm_rejected env thiz ptr bpm m /\
  run (nativeRequestBpm env thiz ptr bpm ;; nativeCaptureBpm env thiz ptr) m =
    run (nativeCaptureBpm env thiz ptr) m /\
  run (nativeRequestBpm env thiz ptr bpm ;;
       state <- ABLLinkCaptureAppSessionState ref ;; ABLLinkGetTempo state) m =
    run (state <- ABLLinkCaptureAppSessionState ref ;;
         ABLLinkGetTempo state) m.
Proof.
  intros _. repeat split.
  intros H. discriminate H.
Qed.

Lemma nonpositive_bpm_ignored_witness :
  dle dm5_0 d0_0 = true /\
  run (nativeRequestBpm 0 0 0 dm5_0) [] = Returns tt [] /\
  ~ bpm_rejected 0 0 0 dm5_0 [] /\
  run (nativeRequestBpm 0 0 0 dm5_0 ;; nativeCaptureBpm 0 0 0) [] =
    run (nativeCaptureBpm 0 0 0) [] /\
  run (nativeRequestBpm 0 0 0 dm5_0 ;;
       state <- ABLLinkCaptureAppSessionState NULL ;;
       ABLLinkGetTempo state) [] =
    run (state <- ABLLinkCaptureAppSessionState NULL ;;
         ABLLinkGetTempo state) [].
Proof.
  split; [reflexivity |].
  apply (nonpositive_bpm_ignored 0 0 0 dm5_0 NULL []); reflexivity.
Defined.

(** C6, as stated, fails at bpm -5.0: the request returns like the request
    for 140.0 does, and is not rejected. *)
Lemma negative_bpm_not_rejected :
  dle dm5_0 d0_0 = true /\
  ~ bpm_rejected 0 0 0 dm5_0 [] /\
  run (nativeRequestBpm 0 0 0 dm5_0) [] = Returns tt [] /\
  run (nativeRequestBpm 0 0 0 dm5_0) [] = run (nativeRequestBpm 0 0 0 d140_0) [].
Proof.
  repeat split. intros H. discriminate H.
Qed.

(* ===================================================================== *)
(** ** The stub provider *)
(* ===================================================================== *)

(** C7. A session on which setActive was never called, or whose provider
    is unavailable, still captures.  Every session of the stub provider has
    the handle [NULL], so this is every session after every history of
    calls, with or without an activation in it: the capture returns a
    state from which a positive finite tempo and a finite beat position are
    read, the phases are valid, the session reports not enabled and the
    peer count is 0.  No call fails. *)
Theorem inactive_session_usable (env : JNIEnv_ptr) (thiz : jobject)
    (bpm : double) (cs : list call) (hostTime : uint64_t)
    (quantum beatQuantum barQuantum : double) (m : Memory) :
  run (session_report bpm cs hostTime quantum) m =
    Returns (NULL, d120_0, d0_0, false, 0) m /\
  run (jni_session_report env thiz bpm cs beatQuantum barQuantum) m =
    Returns (d120_0, d0_0, d0_0, JNI_FALSE, 0) m /\
  dlt d0_0 d120_0 = true /\ is_finite d120_0 = true /\
  is_finite d0_0 = true /\ in_unit_interval d0_0.
Proof.
  split; [| split].
  - unfold session_report.
    rewrite (run_seq (ABLLinkNew bpm) _ NULL m m) by reflexivity.
    rewrite after_history. reflexivity.
  - unfold jni_session_report.
    rewrite (run_seq (nativeCreate env thiz bpm) _ 0 m m) by reflexivity.
    rewrite after_history. reflexivity.
  - repeat split.
Qed.

(** C8. After any history of calls, whatever tempo the session was
    constructed with and whatever was set or committed, and for every
    handle, the peer count is 0 and the tempo is 120, on the C side and
    through the JNI entry points. *)
Theorem stub_peers_zero_tempo_120 (bpm : double) (cs : list call)
    (ref : ABLLinkRef) (state : ABLLinkSessionStateRef) (env : JNIEnv_ptr)
    (thiz : jobject) (ptr : jlong) (m : Memory) :
  run (peers_and_tempo bpm cs) m = Returns (0, d120_0) m /\
  run (jni_peers_and_tempo env thiz bpm cs) m = Returns (0, d120_0) m /\
  run (perform_all cs ;; ABLLinkGetNumPeers ref) m = Returns 0 m /\
  run (perform_all cs ;; ABLLinkGetTempo state) m = Returns d120_0 m /\
  run (perform_all cs ;; nativeNumPeers env thiz ptr) m = Returns 0 m /\
  run (perform_all cs ;; nativeCaptureBpm env thiz ptr) m = Returns d120_0 m /\
  d120_0 = dyadic 120 0.
Proof.
  split; [| split].
  - unfold peers_and_tempo.
    rewrite (run_seq (ABLLinkNew bpm) _ NULL m m) by reflexivity.
    rewrite after_history. reflexivity.
  - unfold jni_peers_and_tempo.
    rewrite (run_seq (nativeCreate env thiz bpm) _ 0 m m) by reflexivity.
    rewrite after_history. reflexivity.
  - rewrite !after_history. repeat split.
Qed.

(** C10. Every operation of the stub layer is total: whatever its
    arguments, it returns.  Whatever handle it is given and whatever the
    heap holds, it yields its fixed value and leaves the heap as it was.  In
    particular it does so at the handles [NULL] and 0 on the empty heap,
    where any access through a handle would fail. *)
Theorem stub_calls_total (ref : ABLLinkRef) (state : ABLLinkSessionStateRef)
    (env : JNIEnv_ptr) (thiz : jobject) (ptr : jlong) (m : Memory) :
  (forall c : call, run (perform c) m = Returns tt m) /\
  stub_defaults ref state env thiz ptr m /\
  stub_defaults NULL NULL env thiz 0 m /\
  stub_defaults NULL NULL env thiz 0 [] /\
  run (deref NULL) m = Fails InvalidAccess /\
  run (deref ref) [] = Fails InvalidAccess.
Proof.
  split; [intros c; apply perform_skip |].
  unfold stub_defaults.
  repeat split; try reflexivity.
  apply deref_empty.
Qed.

(* ===================================================================== *)
(** ** Histories *)
(* ===================================================================== *)

Lemma perform_all_app (cs1 cs2 : list call) (m : Memory) :
  run (perform_all (cs1 ++ cs2)) m = run (perform_all cs1 ;; perform_all cs2) m.
Proof.
  rewrite after_history, !perform_all_skip. reflexivity.
Qed.

(** X6. No history of calls, of either interface and in any order, fails
    or changes the native heap, and it cannot be observed afterwards: any
    computation run after it ends as it would have ended alone, failures
    included. *)
Theorem history_leaves_no_trace {A : Type} (cs1 cs2 : list call)
    (k : native A) (m : Memory) :
  run (perform_all (cs1 ++ cs2)) m = Returns tt m /\
  run (perform_all (cs1 ++ cs2) ;; k) m = run k m /\
  run (perform_all cs1 ;; perform_all cs2 ;; k) m = run k m.
Proof.
  split; [| split].
  - rewrite perform_all_app, after_history. apply perform_all_skip.
  - apply after_history.
  - rewrite !after_history. reflexivity.
Qed.

(* ===================================================================== *)
(** ** Activation *)
(* ===================================================================== *)

(** X1. Activation never takes effect.  Whatever is called before and
    after [ABLLinkSetActive ref true], the session then reports that it is
    not enabled; likewise [nativeIsEnabled] after
    [nativeSetEnabled ptr true]. *)
Theorem activation_never_takes_effect (cs1 cs2 : list call)
    (ref : ABLLinkRef) (env : JNIEnv_ptr) (thiz : jobject) (ptr : jlong)
    (m : Memory) :
  run (activate_then_ask cs1 cs2 ref) m = Returns false m /\
  run (jni_activate_then_ask cs1 cs2 env thiz ptr) m = Returns JNI_FALSE m.
Proof.
  split.
  - unfold activate_then_ask. rewrite after_history.
    rewrite (run_seq (ABLLinkSetActive ref true) _ tt m m) by reflexivity.
    rewrite after_history. reflexivity.
  - unfold jni_activate_then_ask. rewrite after_history.
    rewrite (run_seq (nativeSetEnabled env thiz ptr true) _ tt m m)
      by reflexivity.
    rewrite after_history. reflexivity.
Qed.

(* ===================================================================== *)
(** ** Construction and destruction *)
(* ===================================================================== *)

(** X2. Destroying a session twice and using its handle afterwards is
    harmless: every call returns, the heap is as before, and the session
    reads as a live one does, tempo 120.0, beat and phase 0.0, no peers. *)
Theorem destroyed_session_still_answers (env : JNIEnv_ptr) (thiz : jobject)
    (bpm : double) (hostTime : uint64_t) (quantum : double) (m : Memory) :
  run (use_after_delete bpm hostTime quantum) m = Returns (d120_0, d0_0) m /\
  run (use_after_delete bpm hostTime quantum) m =
    run (ref <- ABLLinkNew bpm ;; observe ref hostTime quantum) m /\
  run (jni_use_after_destroy env thiz bpm quantum) m =
    Returns (d120_0, d0_0, 0) m.
Proof. repeat split. Qed.

(** X3. Construction yields no object.  Two sessions constructed at any
    two tempos get the same handle, and an access through the handle a
    constructor returned fails on every heap. *)
Theorem constructed_handle_is_null (env : JNIEnv_ptr) (thiz : jobject)
    (bpm1 bpm2 : double) (m : Memory) :
  run (same_handle_twice bpm1 bpm2) m = Returns true m /\
  run (jni_same_handle_twice env thiz bpm1 bpm2) m = Returns true m /\
  run (construct_and_access bpm1) m = Fails InvalidAccess /\
  run (jni_construct_and_access env thiz bpm1) m = Fails InvalidAccess.
Proof. repeat split. Qed.

(* ===================================================================== *)
(** ** Tempo requests *)
(* ===================================================================== *)

(** X4. A tempo request is lost.  The tempo read after capture, set tempo
    and commit, or after [nativeRequestBpm], compares equal to the tempo
    requested exactly when the request was for 120.0; after a history of
    such requests it is still 120.0. *)
Theorem tempo_request_is_lost (env : JNIEnv_ptr) (thiz : jobject)
    (ptr : jlong) (ref : ABLLinkRef) (bpm : double) (hostTime : uint64_t)
    (cs : list call) (m : Memory) :
  reads_back bpm (run (request_then_read_tempo ref bpm hostTime) m) =
    deq bpm d120_0 /\
  reads_back bpm (run (jni_request_then_read_bpm env thiz ptr bpm) m) =
    deq bpm d120_0 /\
  run (perform_all cs ;; request_then_read_tempo ref bpm hostTime) m =
    Returns d120_0 m /\
  run (perform_all cs ;; jni_request_then_read_bpm env thiz ptr bpm) m =
    Returns d120_0 m.
Proof.
  rewrite !after_history. repeat split.
Qed.

(** A request for 140.0 does not read back; one for 120.0 does. *)
Example request_140_not_read_back :
  reads_back d140_0 (run (jni_request_then_read_bpm 0 0 0 d140_0) []) = false /\
  reads_back d120_0 (run (jni_request_then_read_bpm 0 0 0 d120_0) []) = true.
Proof. split; reflexivity. Qed.

(* ===================================================================== *)
(** ** The two interfaces side by side *)
(* ===================================================================== *)

(** X5. The C interface and the JNI entry points show the same session:
    after any two histories and for any handles, tempo, enabled flag and
    peer count read through [nativeCaptureBpm], [nativeIsEnabled] and
    [nativeNumPeers] are those read through [ABLLinkGetTempo] on a fresh
    capture, [ABLLinkIsEnabled] and [ABLLinkGetNumPeers]. *)
Theorem interfaces_agree (cs cs' : list call) (ref : ABLLinkRef)
    (env : JNIEnv_ptr) (thiz : jobject) (ptr : jlong) (m : Memory) :
  run (perform_all cs ;; jni_view env thiz ptr) m =
    run (perform_all cs' ;; c_view ref) m.
Proof.
  rewrite !after_history. reflexivity.
Qed.
